(** * idn2module.c: the Python binding around GNU libidn2

    The module provides four functions, [utoa], [lookup], [register] and
    [atou], and the exception [idn2.error] raised when a libidn2 routine
    returns an error code.  This development embeds the binding itself:
    argument parsing, the call into the engine, the test of the return
    code, the construction of the result object and the translation of an
    error code into an exception message ([setidn2errstr]).

    The engine (libidn2) and its header idn2.h are not part of the module.
    The constants and the four entry points the module uses are therefore
    parameters of the development ([idn2_h]): nothing is assumed about the
    values of the former or the answers of the latter.

    The CPython calls are modelled with the error paths they have for
    the objects the module can be handed: the argument parser refusing an
    argument, a string that cannot be encoded or decoded as UTF-8, and
    the "#" format unit, which CPython 3.10 to 3.12 refuse in a module
    that, like this one, does not define [PY_SSIZE_T_CLEAN] ([CPython]).
    Memory exhaustion inside the calls of the four functions is left
    out; in [PyInit_idn2] it is what the three tests of the source are
    about, and is modelled. *)

From Stdlib Require Import ZArith List String Ascii Bool Lia.
From Stdlib Require Import Decimal DecimalPos DecimalZ DecimalString.
Import ListNotations.
Local Open Scope string_scope.
Local Open Scope Z_scope.

(* ===================================================================== *)
(** ** C strings and Python buffers *)
(* ===================================================================== *)

(** A buffer of bytes.  A Python [bytes] object and the UTF-8 encoding of
    a Python [str] are such buffers and may hold NUL bytes anywhere. *)
Definition buffer := string.

Definition NUL : ascii := Ascii.zero.

(** What a C function sees when it is handed a [const char *] to the
    start of a buffer: the bytes before the first NUL. *)
Fixpoint c_str (b : buffer) : string :=
  match b with
  | EmptyString => EmptyString
  | String c rest => if Ascii.eqb c NUL then EmptyString else String c (c_str rest)
  end.

(** [strlen(p) != len], the test CPython uses to refuse embedded NULs. *)
Fixpoint has_nul (b : buffer) : bool :=
  match b with
  | EmptyString => false
  | String c rest => Ascii.eqb c NUL || has_nul rest
  end.

(* ===================================================================== *)
(** ** idn2.h: constants and prototypes *)
(* ===================================================================== *)

(** What the module takes from idn2.h, which it only includes: the
    return codes and flags it names, whose numeric values the header
    fixes, and the four entry points of the engine it calls.  An entry
    point takes its C arguments and gives its return code together with
    what it stored through the output pointer.  The entry points are
    functions of their arguments: the engine keeps no state across
    calls. *)
Record idn2_h : Type := {
  IDN2_OK : Z;
  IDN2_MALLOC : Z;
  IDN2_NO_CODESET : Z;
  IDN2_ICONV_FAIL : Z;
  IDN2_ENCODING_ERROR : Z;
  IDN2_NFC : Z;
  IDN2_PUNYCODE_BAD_INPUT : Z;
  IDN2_PUNYCODE_BIG_OUTPUT : Z;
  IDN2_PUNYCODE_OVERFLOW : Z;
  IDN2_TOO_BIG_DOMAIN : Z;
  IDN2_TOO_BIG_LABEL : Z;
  IDN2_INVALID_ALABEL : Z;
  IDN2_UALABEL_MISMATCH : Z;
  IDN2_INVALID_FLAGS : Z;
  IDN2_NOT_NFC : Z;
  IDN2_2HYPHEN : Z;
  IDN2_HYPHEN_STARTEND : Z;
  IDN2_LEADING_COMBINING : Z;
  IDN2_DISALLOWED : Z;
  IDN2_CONTEXTJ : Z;
  IDN2_CONTEXTJ_NO_RULE : Z;
  IDN2_CONTEXTO : Z;
  IDN2_CONTEXTO_NO_RULE : Z;
  IDN2_UNASSIGNED : Z;
  IDN2_BIDI : Z;
  IDN2_DOT_IN_LABEL : Z;
  IDN2_INVALID_TRANSITIONAL : Z;
  IDN2_INVALID_NONTRANSITIONAL : Z;
  (* flags *)
  IDN2_NFC_INPUT : Z;
  IDN2_NO_TR46 : Z;
  (* entry points *)
  idn2_to_ascii_8z : string -> Z -> Z * buffer;
  idn2_lookup_u8 : string -> Z -> Z * buffer;
  idn2_register_u8 : option string -> option string -> Z -> Z * buffer;
  idn2_to_unicode_8z8z : string -> Z -> Z * buffer
}.

(* ===================================================================== *)
(** ** Python objects and the error indicator *)
(* ===================================================================== *)

(** The argument and result objects the module handles.  A [str] is kept
    as its UTF-8 encoding, the form in which the "s" and "z" formats hand
    it to C and in which [PyUnicode_FromString] reads it.  A [str] that
    holds a lone surrogate has no UTF-8 encoding and is an object of its
    own.  ([PyUnicode u] with [u] not well-formed UTF-8 stands for no
    [str]; nothing below needs to exclude it.) *)
Inductive PyObject : Type :=
| Py_None
| PyUnicode (utf8 : buffer)
| PyBytes (b : buffer)
| PyLong (n : Z)
| PyUnicode_unencodable.

(** Exception classes.  [PyErr_NewException name] makes a new class. *)
Inductive PyExc : Type :=
| PyExc_TypeError
| PyExc_ValueError
| NewException (name : string)
| PyExc_SystemError
| PyExc_UnicodeEncodeError
| PyExc_UnicodeDecodeError.

(** [Idn2Error], as [PyInit_idn2] sets it. *)
Definition Idn2Error : PyExc := NewException "idn2.error".

(** A raised exception: its class and message.  The messages of the
    exceptions raised inside CPython ([PyArg_ParseTuple],
    [PyUnicode_FromString]) are CPython's own and are not modelled
    ([None]). *)
Definition PyErr : Type := (PyExc * option string)%type.

(** The calls into the engine, as they are made. *)
Inductive EngineCall : Type :=
| Call_to_ascii_8z (src : string) (flags : Z)
| Call_lookup_u8 (src : string) (flags : Z)
| Call_register_u8 (ulabel alabel : option string) (flags : Z)
| Call_to_unicode_8z8z (src : string) (flags : Z).

(** The part of the interpreter state the module touches: the error
    indicator, and (as ghost state) the engine calls made so far, the
    latest first. *)
Record PyThreadState : Type := {
  curexc : option PyErr;
  conversions : list EngineCall
}.

Definition M (A : Type) : Type := PyThreadState -> A * PyThreadState.

Definition ret {A} (a : A) : M A := fun st => (a, st).
Definition bind {A B} (m : M A) (k : A -> M B) : M B :=
  fun st => let (a, st') := m st in k a st'.

Declare Scope py_scope.
Delimit Scope py_scope with py.
Notation "x <- m ;; k" := (bind m (fun x => k))
  (at level 100, m at next level, right associativity) : py_scope.
Notation "m ;; k" := (bind m (fun _ => k))
  (at level 100, right associativity) : py_scope.
Local Open Scope py_scope.

(** [PyErr_SetString(cls, msg)] and [PyErr_SetObject(cls, str)]. *)
Definition PyErr_SetString (cls : PyExc) (msg : string) : M unit :=
  fun st => (tt, {| curexc := Some (cls, Some msg); conversions := conversions st |}).

Definition PyErr_SetObject (cls : PyExc) (msg : string) : M unit :=
  PyErr_SetString cls msg.

(** [PyErr_Clear()]. *)
Definition PyErr_Clear (st : PyThreadState) : PyThreadState :=
  {| curexc := None; conversions := conversions st |}.

(** An exception raised inside CPython's argument parser. *)
Definition PyErr_Parse (cls : PyExc) : M unit :=
  fun st => (tt, {| curexc := Some (cls, None); conversions := conversions st |}).

(** The C [%d] conversion of [PyUnicode_FromFormat]. *)
Definition format_d (n : Z) : string := NilZero.string_of_int (Z.to_int n).

(* ===================================================================== *)
(** ** Argument parsing and result construction (CPython) *)
(* ===================================================================== *)

(** The CPython the module is built against and runs on.  The module
    includes Python.h without defining [PY_SSIZE_T_CLEAN] first.  CPython
    3.10 to 3.12 then refuse to convert a format unit with "#" and raise
    [SystemError], whatever the argument; CPython up to 3.9 converts it.
    Which one is at hand is a parameter. *)
Record CPython : Type := {
  hash_needs_PY_SSIZE_T_CLEAN : bool
}.

(** Format unit "s": a [str] without embedded NUL, as a C string.  A
    [str] that cannot be encoded raises [UnicodeEncodeError]. *)
Definition parse_s (o : PyObject) : PyExc + buffer :=
  match o with
  | PyUnicode u => if has_nul u then inl PyExc_ValueError else inr u
  | PyUnicode_unencodable => inl PyExc_UnicodeEncodeError
  | _ => inl PyExc_TypeError
  end.

(** Format unit "y": a [bytes] object without embedded NUL. *)
Definition parse_y (o : PyObject) : PyExc + buffer :=
  match o with
  | PyBytes b => if has_nul b then inl PyExc_ValueError else inr b
  | _ => inl PyExc_TypeError
  end.

(** Format unit "z": like "s", and [None] gives the NULL pointer. *)
Definition parse_z (o : PyObject) : PyExc + option buffer :=
  match o with
  | Py_None => inr None
  | PyUnicode u => if has_nul u then inl PyExc_ValueError else inr (Some u)
  | PyUnicode_unencodable => inl PyExc_UnicodeEncodeError
  | _ => inl PyExc_TypeError
  end.

(** Format unit "z#": a [str], a [bytes] object or [None]; the buffer is
    handed over together with its length and may hold NUL bytes.  Where
    "#" needs [PY_SSIZE_T_CLEAN], the unit is refused before the argument
    is looked at. *)
Definition parse_z_hash (py : CPython) (o : PyObject) : PyExc + option buffer :=
  if hash_needs_PY_SSIZE_T_CLEAN py then inl PyExc_SystemError
  else
    match o with
    | Py_None => inr None
    | PyUnicode u => inr (Some u)
    | PyBytes b => inr (Some b)
    | PyUnicode_unencodable => inl PyExc_UnicodeEncodeError
    | _ => inl PyExc_TypeError
    end.

(** [PyArg_ParseTuple(args, "s", &ulabel)]. *)
Definition PyArg_ParseTuple_s (args : list PyObject) : PyExc + buffer :=
  match args with
  | [o] => parse_s o
  | _ => inl PyExc_TypeError
  end.

(** [PyArg_ParseTuple(args, "y", &alabel)]. *)
Definition PyArg_ParseTuple_y (args : list PyObject) : PyExc + buffer :=
  match args with
  | [o] => parse_y o
  | _ => inl PyExc_TypeError
  end.

(** [PyArg_ParseTuple(args, "zz#", &ulabel, &alabel, &alen)]. *)
Definition PyArg_ParseTuple_zz_hash (py : CPython) (args : list PyObject)
  : PyExc + (option buffer * option buffer) :=
  match args with
  | [o1; o2] =>
      match parse_z o1 with
      | inl e => inl e
      | inr ulabel =>
          match parse_z_hash py o2 with
          | inl e => inl e
          | inr alabel => inr (ulabel, alabel)
          end
      end
  | _ => inl PyExc_TypeError
  end.

(** [Py_BuildValue("y", p)]: a [bytes] object copied from a C string. *)
Definition Py_BuildValue_y (p : buffer) : PyObject := PyBytes (c_str p).

(** A function of the module returns a [PyObject *]; [None] is NULL. *)
Definition NULL {A} : option A := None.

(** Well-formed UTF-8, as CPython's strict decoder accepts it: no
    overlong form, no surrogate, nothing above U+10FFFF, no sequence cut
    short. *)
Definition byte_in (lo hi : N) (c : ascii) : bool :=
  ((lo <=? N_of_ascii c) && (N_of_ascii c <=? hi))%N.

Definition continuation : ascii -> bool := byte_in 128 191.

Fixpoint utf8_valid (s : string) : bool :=
  match s with
  | EmptyString => true
  | String c0 s1 =>
      if byte_in 0 127 c0 then utf8_valid s1
      else
        match s1 with
        | EmptyString => false
        | String c1 s2 =>
            if byte_in 194 223 c0 then continuation c1 && utf8_valid s2
            else
              match s2 with
              | EmptyString => false
              | String c2 s3 =>
                  if byte_in 224 239 c0 then
                    (if byte_in 224 224 c0 then byte_in 160 191 c1
                     else if byte_in 237 237 c0 then byte_in 128 159 c1
                     else continuation c1)
                    && continuation c2 && utf8_valid s3
                  else
                    match s3 with
                    | EmptyString => false
                    | String c3 s4 =>
                        if byte_in 240 244 c0 then
                          (if byte_in 240 240 c0 then byte_in 144 191 c1
                           else if byte_in 244 244 c0 then byte_in 128 143 c1
                           else continuation c1)
                          && continuation c2 && continuation c3
                          && utf8_valid s4
                        else false
                    end
              end
        end
  end.

(** An exception raised by CPython's UTF-8 decoder. *)
Definition PyErr_Decode : M unit :=
  fun st => (tt, {| curexc := Some (PyExc_UnicodeDecodeError, None);
                    conversions := conversions st |}).

(** [PyUnicode_FromString(p)]: a [str] read from a UTF-8 C string, or
    NULL with [UnicodeDecodeError] when the bytes are not UTF-8. *)
Definition PyUnicode_FromString (p : buffer) : M (option PyObject) :=
  if utf8_valid (c_str p) then ret (Some (PyUnicode (c_str p)))
  else (PyErr_Decode ;; ret NULL).

(* ===================================================================== *)
(** ** Inputs for running the model *)
(* ===================================================================== *)

(** An idn2.h to run the module on examples: the constants have the
    values libidn2 gives them, and each entry point answers [rc] and
    stores [out], whatever it is asked.  The development does not depend
    on either. *)
Definition stand_in (rc : Z) (out : buffer) : idn2_h := {|
  IDN2_OK := 0;
  IDN2_MALLOC := -100;
  IDN2_NO_CODESET := -101;
  IDN2_ICONV_FAIL := -102;
  IDN2_ENCODING_ERROR := -200;
  IDN2_NFC := -201;
  IDN2_PUNYCODE_BAD_INPUT := -202;
  IDN2_PUNYCODE_BIG_OUTPUT := -203;
  IDN2_PUNYCODE_OVERFLOW := -204;
  IDN2_TOO_BIG_DOMAIN := -205;
  IDN2_TOO_BIG_LABEL := -206;
  IDN2_INVALID_ALABEL := -207;
  IDN2_UALABEL_MISMATCH := -208;
  IDN2_INVALID_FLAGS := -209;
  IDN2_NOT_NFC := -300;
  IDN2_2HYPHEN := -301;
  IDN2_HYPHEN_STARTEND := -302;
  IDN2_LEADING_COMBINING := -303;
  IDN2_DISALLOWED := -304;
  IDN2_CONTEXTJ := -305;
  IDN2_CONTEXTJ_NO_RULE := -306;
  IDN2_CONTEXTO := -307;
  IDN2_CONTEXTO_NO_RULE := -308;
  IDN2_UNASSIGNED := -309;
  IDN2_BIDI := -310;
  IDN2_DOT_IN_LABEL := -311;
  IDN2_INVALID_TRANSITIONAL := -312;
  IDN2_INVALID_NONTRANSITIONAL := -313;
  IDN2_NFC_INPUT := 1;
  IDN2_NO_TR46 := 64;
  idn2_to_ascii_8z := fun _ _ => (rc, out);
  idn2_lookup_u8 := fun _ _ => (rc, out);
  idn2_register_u8 := fun _ _ _ => (rc, out);
  idn2_to_unicode_8z8z := fun _ _ => (rc, out)
|}.

(** A CPython that converts "#" units as the module is built (3.9), and
    one that refuses them (3.11). *)
Definition cpython_3_9 : CPython := {| hash_needs_PY_SSIZE_T_CLEAN := false |}.
Definition cpython_3_11 : CPython := {| hash_needs_PY_SSIZE_T_CLEAN := true |}.

(** A fresh interpreter state: no exception pending, no call made. *)
Definition st0 : PyThreadState := {| curexc := None; conversions := [] |}.

(** The four functions of the method table [Idn2Methods]. *)
Inductive operation : Type := utoa | lookup | register | atou.

(** What a call looks like from Python: the object returned or [NULL],
    and what the error indicator holds afterwards. *)
Inductive outcome : Type :=
| Returned (v : PyObject)         (* an object, no exception pending *)
| Raised (e : PyErr)              (* NULL, with an exception set *)
| Both (v : PyObject) (e : PyErr) (* an object and an exception *)
| Neither.                        (* NULL and no exception *)

Definition outcome_of (r : option PyObject * PyThreadState) : outcome :=
  match fst r, curexc (snd r) with
  | Some v, None => Returned v
  | None, Some e => Raised e
  | Some v, Some e => Both v e
  | None, None => Neither
  end.

(** First entry of a code-to-message table for [rc]. *)
Fixpoint table_lookup (t : list (Z * string)) (rc : Z) : option string :=
  match t with
  | [] => None
  | (code, msg) :: t' => if rc =? code then Some msg else table_lookup t' rc
  end.

(** The number of arguments each function takes: the number of format
    units in its [PyArg_ParseTuple] format ("s", "s", "zz#", "y"). *)
Definition arity (op : operation) : nat :=
  match op with
  | register => 2
  | _ => 1
  end.

(* ===================================================================== *)
(** ** The method table and module initialisation *)
(* ===================================================================== *)

(** An entry of a method table: name, C function, calling convention
    and docstring; the table ends with the sentinel
    [{NULL, NULL, 0, NULL}].  The C function is named by its
    [operation]. *)
Inductive PyMethodDef : Type :=
| Method (ml_name : string) (ml_meth : operation) (ml_flags : Z) (ml_doc : string)
| Sentinel.

Definition METH_VARARGS : Z := 1.

Definition Idn2Methods : list PyMethodDef :=
  [ Method "utoa" utoa METH_VARARGS "Convert U-labels to A-labels.";
    Method "lookup" lookup METH_VARARGS "Lookup U-label conversion.";
    Method "register" register METH_VARARGS "Lookup U-label conversion.";
    Method "atou" atou METH_VARARGS "Convert A-labels to U-labels.";
    Sentinel ].

Record PyModuleDef : Type := {
  m_name : string;
  m_doc : option string;
  m_size : Z;
  m_methods : list PyMethodDef
}.

Definition idn2module : PyModuleDef := {|
  m_name := "idn2";                (* name of module *)
  m_doc := None;                   (* module documentation, may be NULL *)
  m_size := -1;
  m_methods := Idn2Methods
|}.

(** What a name of the module is bound to. *)
Inductive attribute : Type :=
| Builtin (meth : operation) (doc : string)
| Class (cls : PyExc).

(** A module object: its name and its dictionary.  Setting a key that
    is there replaces its value. *)
Definition dict : Type := list (string * attribute).

Fixpoint dict_set (k : string) (v : attribute) (d : dict) : dict :=
  match d with
  | [] => [(k, v)]
  | (k', v') :: d' =>
      if String.eqb k k' then (k, v) :: d' else (k', v') :: dict_set k v d'
  end.

Fixpoint dict_get (k : string) (d : dict) : option attribute :=
  match d with
  | [] => None
  | (k', v') :: d' => if String.eqb k k' then Some v' else dict_get k d'
  end.

Record PyModule : Type := {
  md_name : string;
  md_dict : dict
}.

(** The functions of a method table are added one by one, up to the
    sentinel. *)
Fixpoint PyModule_AddFunctions (d : dict) (table : list PyMethodDef) : dict :=
  match table with
  | Method name meth _ doc :: rest =>
      PyModule_AddFunctions (dict_set name (Builtin meth doc) d) rest
  | _ => d
  end.

(** The three calls of [PyInit_idn2] into CPython allocate and can fail;
    which of them succeed is a parameter. *)
Record runtime : Type := {
  module_created : bool;
  exception_created : bool;
  object_added : bool
}.

Definition PyModule_Create (rt : runtime) (def : PyModuleDef) : option PyModule :=
  if module_created rt
  then Some {| md_name := m_name def;
               md_dict := PyModule_AddFunctions [] (m_methods def) |}
  else NULL.

Definition PyErr_NewException (rt : runtime) (name : string) : option PyExc :=
  if exception_created rt then Some (NewException name) else NULL.

(** [PyModule_AddObject(m, name, value)]; [None] is the result -1. *)
Definition PyModule_AddObject (rt : runtime) (m : PyModule) (name : string)
                              (value : PyExc) : option PyModule :=
  if object_added rt
  then Some {| md_name := md_name m;
               md_dict := dict_set name (Class value) (md_dict m) |}
  else None.

(** [PyInit_idn2].  The state is the static variable [Idn2Error]; the
    result is the module or NULL, and the variable afterwards. *)
Definition PyInit_idn2 (rt : runtime) (Idn2Error_var : option PyExc)
  : option PyModule * option PyExc :=
  match PyModule_Create rt idn2module with
  | None => (NULL, Idn2Error_var)
  | Some m =>
      match PyErr_NewException rt "idn2.error" with
      | None => (NULL, None)
      | Some e =>
          match PyModule_AddObject rt m "error" e with
          | None => (NULL, Some e)
          | Some m' => (Some m', Some e)
          end
      end
  end.

(* ===================================================================== *)
(** ** The module *)
(* ===================================================================== *)

Section Idn2Module.

Variable h : idn2_h.
Variable py : CPython.

(** What the engine answers to a call. *)
Definition engine (c : EngineCall) : Z * buffer :=
  match c with
  | Call_to_ascii_8z src flags => idn2_to_ascii_8z h src flags
  | Call_lookup_u8 src flags => idn2_lookup_u8 h src flags
  | Call_register_u8 ulabel alabel flags => idn2_register_u8 h ulabel alabel flags
  | Call_to_unicode_8z8z src flags => idn2_to_unicode_8z8z h src flags
  end.

(** Calling the engine: the call is recorded and answered. *)
Definition call (c : EngineCall) : M (Z * buffer) :=
  fun st => (engine c,
             {| curexc := curexc st; conversions := c :: conversions st |}).

(** The [switch] of [setidn2errstr]: [Some errstr] when a [case] is
    taken, [None] for [default].  (The case labels of a C [switch] are
    pairwise different, so taking the first that matches is taking the
    one that matches.) *)
Definition switch_errstr (rc : Z) : option string :=
  if rc =? IDN2_MALLOC h then Some "Memory allocation error."
  else if rc =? IDN2_NO_CODESET h then
    Some "Could not determine locale string encoding format."
  else if rc =? IDN2_ICONV_FAIL h then
    Some "Could not transcode locale string to UTF-8."
  else if rc =? IDN2_ENCODING_ERROR h then Some "Unicode data encoding error."
  else if rc =? IDN2_NFC h then Some "Error normalizing string."
  else if rc =? IDN2_PUNYCODE_BAD_INPUT h then Some "Punycode invalid input."
  else if rc =? IDN2_PUNYCODE_BIG_OUTPUT h then
    Some "Punycode output buffer too small."
  else if rc =? IDN2_PUNYCODE_OVERFLOW h then
    Some "Punycode conversion would overflow."
  else if rc =? IDN2_TOO_BIG_DOMAIN h then
    Some "Domain name longer than 255 characters."
  else if rc =? IDN2_TOO_BIG_LABEL h then
    Some "Domain label longer than 63 characters."
  else if rc =? IDN2_INVALID_ALABEL h then Some "Input A-label is not valid."
  else if rc =? IDN2_UALABEL_MISMATCH h then
    Some "Input A-label and U-label does not match."
  else if rc =? IDN2_INVALID_FLAGS h then Some "Invalid combination of flags."
  else if rc =? IDN2_NOT_NFC h then Some "String is not NFC."
  else if rc =? IDN2_2HYPHEN h then Some "String has forbidden two hyphens."
  else if rc =? IDN2_HYPHEN_STARTEND h then
    Some "String has forbidden starting/ending hyphen."
  else if rc =? IDN2_LEADING_COMBINING h then
    Some "String has forbidden leading combining character."
  else if rc =? IDN2_DISALLOWED h then Some "String has disallowed character."
  else if rc =? IDN2_CONTEXTJ h then
    Some "String has forbidden context-j character."
  else if rc =? IDN2_CONTEXTJ_NO_RULE h then
    Some "String has context-j character with no rull."
  else if rc =? IDN2_CONTEXTO h then
    Some "String has forbidden context-o character."
  else if rc =? IDN2_CONTEXTO_NO_RULE h then
    Some "String has context-o character with no rull."
  else if rc =? IDN2_UNASSIGNED h then
    Some "String has forbidden unassigned character."
  else if rc =? IDN2_BIDI h then
    Some "String has forbidden bi-directional properties."
  else if rc =? IDN2_DOT_IN_LABEL h then Some "Label has forbidden dot."
  else if rc =? IDN2_INVALID_TRANSITIONAL h then
    Some "Label has character forbidden in transitional mode."
  else if rc =? IDN2_INVALID_NONTRANSITIONAL h then
    Some "Label has character forbidden in non-transitional mode)."
  else None.

(** turn idn2 error into an error message *)
Definition setidn2errstr (rc : Z) : M unit :=
  match switch_errstr rc with
  | None => PyErr_SetObject Idn2Error ("idn2 error " ++ format_d rc)
  | Some errstr => (* use known error string *)
      PyErr_SetString Idn2Error errstr
  end.

(** utoa(str ulabel) -> bytes a-label *)
Definition idn2_utoa (args : list PyObject) : M (option PyObject) :=
  match PyArg_ParseTuple_s args with
  | inl e => PyErr_Parse e ;; ret NULL
  | inr ulabel =>
      r <- call (Call_to_ascii_8z (c_str ulabel) (IDN2_NO_TR46 h)) ;;
      let (rc, alabel) := r in
      if rc =? IDN2_OK h then ret (Some (Py_BuildValue_y alabel))
      else (setidn2errstr rc ;; ret NULL)
  end.

(** lookup(str ulabel) -> bytes alabel *)
Definition idn2_lookup (args : list PyObject) : M (option PyObject) :=
  match PyArg_ParseTuple_s args with
  | inl e => PyErr_Parse e ;; ret NULL
  | inr ulabel =>
      r <- call (Call_lookup_u8 (c_str ulabel) (IDN2_NFC_INPUT h)) ;;
      let (rc, alabel) := r in
      if rc =? IDN2_OK h then ret (Some (Py_BuildValue_y alabel))
      else (setidn2errstr rc ;; ret NULL)
  end.

(** register(str ulabel, bytes alabel) -> bytes rlabel.  Python.h is
    included with [PY_SSIZE_T_CLEAN] not defined, which is what the "#"
    of the format meets in the parser.  The length [alen] that "z#"
    stores is not used: the engine is handed the two pointers. *)
Definition idn2_register (args : list PyObject) : M (option PyObject) :=
  match PyArg_ParseTuple_zz_hash py args with
  | inl e => PyErr_Parse e ;; ret NULL
  | inr (None, None) =>
      PyErr_SetString Idn2Error "Both arguments null." ;; ret NULL
  | inr (ulabel, alabel) =>
      r <- call (Call_register_u8 (option_map c_str ulabel)
                                  (option_map c_str alabel)
                                  (IDN2_NFC_INPUT h)) ;;
      let (rc, rlabel) := r in
      if rc =? IDN2_OK h then ret (Some (Py_BuildValue_y rlabel))
      else (setidn2errstr rc ;; ret NULL)
  end.

(** atou(bytes alabel) -> str ulabel *)
Definition idn2_atou (args : list PyObject) : M (option PyObject) :=
  match PyArg_ParseTuple_y args with
  | inl e => PyErr_Parse e ;; ret NULL
  | inr alabel =>
      r <- call (Call_to_unicode_8z8z (c_str alabel) 0) ;;
      let (rc, ulabel) := r in
      if rc =? IDN2_OK h then PyUnicode_FromString ulabel
      else (setidn2errstr rc ;; ret NULL)
  end.


(** The method table: which C function serves which Python name. *)
Definition run (op : operation) : list PyObject -> M (option PyObject) :=
  match op with
  | utoa => idn2_utoa
  | lookup => idn2_lookup
  | register => idn2_register
  | atou => idn2_atou
  end.


(** The result object an operation builds from the engine's output. *)
Definition result_object (op : operation) (out : buffer) : PyObject :=
  match op with
  | atou => PyUnicode (c_str out)
  | _ => PyBytes (c_str out)
  end.

(** The static error-message table, as data: the code and the message
    of each [case] of [setidn2errstr], in order. *)
Definition error_message_table : list (Z * string) :=
  [ (IDN2_MALLOC h, "Memory allocation error.");
    (IDN2_NO_CODESET h, "Could not determine locale string encoding format.");
    (IDN2_ICONV_FAIL h, "Could not transcode locale string to UTF-8.");
    (IDN2_ENCODING_ERROR h, "Unicode data encoding error.");
    (IDN2_NFC h, "Error normalizing string.");
    (IDN2_PUNYCODE_BAD_INPUT h, "Punycode invalid input.");
    (IDN2_PUNYCODE_BIG_OUTPUT h, "Punycode output buffer too small.");
    (IDN2_PUNYCODE_OVERFLOW h, "Punycode conversion would overflow.");
    (IDN2_TOO_BIG_DOMAIN h, "Domain name longer than 255 characters.");
    (IDN2_TOO_BIG_LABEL h, "Domain label longer than 63 characters.");
    (IDN2_INVALID_ALABEL h, "Input A-label is not valid.");
    (IDN2_UALABEL_MISMATCH h, "Input A-label and U-label does not match.");
    (IDN2_INVALID_FLAGS h, "Invalid combination of flags.");
    (IDN2_NOT_NFC h, "String is not NFC.");
    (IDN2_2HYPHEN h, "String has forbidden two hyphens.");
    (IDN2_HYPHEN_STARTEND h, "String has forbidden starting/ending hyphen.");
    (IDN2_LEADING_COMBINING h,
     "String has forbidden leading combining character.");
    (IDN2_DISALLOWED h, "String has disallowed character.");
    (IDN2_CONTEXTJ h, "String has forbidden context-j character.");
    (IDN2_CONTEXTJ_NO_RULE h, "String has context-j character with no rull.");
    (IDN2_CONTEXTO h, "String has forbidden context-o character.");
    (IDN2_CONTEXTO_NO_RULE h, "String has context-o character with no rull.");
    (IDN2_UNASSIGNED h, "String has forbidden unassigned character.");
    (IDN2_BIDI h, "String has forbidden bi-directional properties.");
    (IDN2_DOT_IN_LABEL h, "Label has forbidden dot.");
    (IDN2_INVALID_TRANSITIONAL h,
     "Label has character forbidden in transitional mode.");
    (IDN2_INVALID_NONTRANSITIONAL h,
     "Label has character forbidden in non-transitional mode).") ].

(** The message that goes with a return code: the one the table has
    for it, or else the fallback text with the number in decimal. *)
Definition error_message (rc : Z) : string :=
  match table_lookup error_message_table rc with
  | Some msg => msg
  | None => "idn2 error " ++ format_d rc
  end.

(** The exception [register] raises itself. *)
Definition both_null : PyErr := (Idn2Error, Some "Both arguments null.").

(** A sequence of calls made from Python, one after the other.  After
    each call the interpreter hands the result, or the pending
    exception, to the Python caller, which leaves the error indicator
    clear for the next call. *)
Fixpoint exec (calls : list (operation * list PyObject))
              (st : PyThreadState) : PyThreadState :=
  match calls with
  | [] => st
  | (op, args) :: rest => exec rest (PyErr_Clear (snd (run op args st)))
  end.

(** Whether the result object can be built from the engine's output:
    always for a [bytes] result; for the [str] result of [atou], when the
    output is UTF-8. *)
Definition decodes (op : operation) (out : buffer) : bool :=
  match op with
  | atou => utf8_valid (c_str out)
  | _ => true
  end.

(** How each function builds its result from the engine's output:
    [Py_BuildValue("y", ...)], or [PyUnicode_FromString] in [atou]. *)
Definition build_result (op : operation) (out : buffer) : M (option PyObject) :=
  match op with
  | atou => PyUnicode_FromString out
  | _ => ret (Some (Py_BuildValue_y out))
  end.

(** What an operation does once it calls the engine with [c]: the
    call is recorded, and the answer decides between the result object
    and the exception. *)
Definition engine_path (op : operation) (c : EngineCall)
  : M (option PyObject) :=
  fun st =>
    let (rc, out) := engine c in
    if rc =? IDN2_OK h
    then build_result op out
           {| curexc := curexc st; conversions := c :: conversions st |}
    else (NULL,
          {| curexc := Some (Idn2Error, Some (error_message rc));
             conversions := c :: conversions st |}).

(** The exceptions of the argument parser. *)
Definition parser_exception (e : PyExc) : Prop :=
  e = PyExc_TypeError \/ e = PyExc_ValueError
  \/ e = PyExc_SystemError \/ e = PyExc_UnicodeEncodeError.

(** The three ways through each of the four functions: the parser
    refuses the arguments; [register] finds both pointers NULL; or the
    engine is called and its answer handled. *)
Inductive path (op : operation) (args : list PyObject) (st : PyThreadState)
  : option PyObject * PyThreadState -> Prop :=
| path_parser e :
    parser_exception e ->
    path op args st
         (NULL, {| curexc := Some (e, None); conversions := conversions st |})
| path_both_null :
    op = register -> args = [Py_None; Py_None] ->
    path op args st
         (NULL, {| curexc := Some both_null; conversions := conversions st |})
| path_engine c :
    args <> [Py_None; Py_None] \/ op <> register ->
    path op args st (engine_path op c st).

(** What each function may ask of the engine: its own entry point, with
    the flags the source writes at the call, and, for [register], not both
    pointers NULL. *)
Definition asks (op : operation) (c : EngineCall) : Prop :=
  match op, c with
  | utoa, Call_to_ascii_8z _ flags => flags = IDN2_NO_TR46 h
  | lookup, Call_lookup_u8 _ flags => flags = IDN2_NFC_INPUT h
  | register, Call_register_u8 ulabel alabel flags =>
      flags = IDN2_NFC_INPUT h /\ (ulabel <> None \/ alabel <> None)
  | atou, Call_to_unicode_8z8z _ flags => flags = 0
  | _, _ => False
  end.

(* ===================================================================== *)
(** ** Properties of the parts *)
(* ===================================================================== *)

Lemma c_str_no_nul (b : buffer) : has_nul (c_str b) = false.
Proof.
  induction b as [|c rest IH]; simpl; [reflexivity|].
  destruct (Ascii.eqb c NUL) eqn:E; simpl; [reflexivity|].
  now rewrite E.
Qed.

Lemma c_str_whole (b : buffer) : has_nul b = false -> c_str b = b.
Proof.
  induction b as [|c rest IH]; simpl; [reflexivity|].
  destruct (Ascii.eqb c NUL); simpl; [discriminate|].
  intros Hrest. now rewrite IH.
Qed.

Lemma c_str_idem (b : buffer) : c_str (c_str b) = c_str b.
Proof. apply c_str_whole, c_str_no_nul. Qed.

(** A C string stops at the first NUL of the buffer. *)
Lemma c_str_stops (a rest : buffer) :
  c_str (a ++ String NUL rest) = c_str a.
Proof.
  induction a as [|c a IH]; simpl; [reflexivity|].
  destruct (Ascii.eqb c NUL); [reflexivity|]. now rewrite IH.
Qed.

Lemma cons_neq_self {A} (x : A) (l : list A) : x :: l <> l.
Proof.
  intros E. apply (f_equal (@List.length A)) in E. simpl in E.
  revert E. generalize (List.length l). intros n E. induction n; congruence.
Qed.

(** The [switch] of the source and the table as data agree. *)
Lemma switch_errstr_table (rc : Z) :
  switch_errstr rc = table_lookup error_message_table rc.
Proof. reflexivity. Qed.

Lemma setidn2errstr_message (rc : Z) (st : PyThreadState) :
  setidn2errstr rc st =
  (tt, {| curexc := Some (Idn2Error, Some (error_message rc));
          conversions := conversions st |}).
Proof.
  unfold setidn2errstr, error_message.
  change (table_lookup error_message_table rc) with (switch_errstr rc).
  destruct (switch_errstr rc); reflexivity.
Qed.

(** Building the result: the object, or [UnicodeDecodeError]. *)
Lemma build_result_cases (op : operation) (out : buffer) (st : PyThreadState) :
  build_result op out st =
  if decodes op out
  then (Some (result_object op out), st)
  else (NULL, {| curexc := Some (PyExc_UnicodeDecodeError, None);
                 conversions := conversions st |}).
Proof.
  destruct op; cbn [build_result decodes result_object]; try reflexivity.
  unfold PyUnicode_FromString. now destruct (utf8_valid (c_str out)).
Qed.

(** The code shared by the four functions after the engine is called. *)
Lemma after_call (op : operation) (c : EngineCall) (st : PyThreadState) :
  (r <- call c ;;
   let (rc, out) := r in
   if rc =? IDN2_OK h then build_result op out
   else (setidn2errstr rc ;; ret NULL)) st
  = engine_path op c st.
Proof.
  unfold bind, call, engine_path, ret.
  destruct (engine c) as [rc out].
  destruct (rc =? IDN2_OK h); [reflexivity|].
  now rewrite setidn2errstr_message.
Qed.

Lemma engine_path_conversions op c st :
  conversions (snd (engine_path op c st)) = c :: conversions st.
Proof.
  unfold engine_path. destruct (engine c) as [rc out].
  destruct (rc =? IDN2_OK h); [|reflexivity].
  rewrite build_result_cases. now destruct (decodes op out).
Qed.

(** The outcome of a call that reaches the engine. *)
Lemma engine_path_outcome op c st :
  outcome_of (engine_path op c st) =
  let (rc, out) := engine c in
  if rc =? IDN2_OK h then
    if decodes op out then
      match curexc st with
      | None => Returned (result_object op out)
      | Some e => Both (result_object op out) e
      end
    else Raised (PyExc_UnicodeDecodeError, None)
  else Raised (Idn2Error, Some (error_message rc)).
Proof.
  unfold engine_path. destruct (engine c) as [rc out].
  destruct (rc =? IDN2_OK h); [|reflexivity].
  rewrite build_result_cases. now destruct (decodes op out).
Qed.

(** No message of [setidn2errstr] is the message of [both_null]. *)
Lemma error_message_not_both_null (rc : Z) :
  error_message rc <> "Both arguments null.".
Proof.
  unfold error_message, error_message_table, table_lookup.
  repeat match goal with
         | |- context [if ?b then _ else _] => destruct b; [discriminate|]
         end.
  discriminate.
Qed.

(** The argument parser raises one of its four exceptions only. *)
Lemma PyArg_ParseTuple_s_exception args e :
  PyArg_ParseTuple_s args = inl e -> parser_exception e.
Proof.
  unfold PyArg_ParseTuple_s, parse_s, parser_exception.
  destruct args as [|o [|? ?]]; try destruct o; try destruct (has_nul _);
    intros [= <-]; auto.
Qed.

Lemma PyArg_ParseTuple_y_exception args e :
  PyArg_ParseTuple_y args = inl e -> parser_exception e.
Proof.
  unfold PyArg_ParseTuple_y, parse_y, parser_exception.
  destruct args as [|o [|? ?]]; try destruct o; try destruct (has_nul _);
    intros [= <-]; auto.
Qed.

Lemma PyArg_ParseTuple_zz_hash_exception args e :
  PyArg_ParseTuple_zz_hash py args = inl e -> parser_exception e.
Proof.
  unfold PyArg_ParseTuple_zz_hash, parse_z, parse_z_hash, parser_exception.
  destruct args as [|o1 [|o2 [|? ?]]]; try destruct o1;
    try destruct (has_nul _);
    try destruct (hash_needs_PY_SSIZE_T_CLEAN py);
    try destruct o2; intros [= <-]; auto 6.
Qed.

(** Both pointers are NULL only for the argument tuple [(None, None)],
    and only where the "#" unit is converted. *)
Lemma PyArg_ParseTuple_zz_hash_null args :
  PyArg_ParseTuple_zz_hash py args = inr (None, None) ->
  args = [Py_None; Py_None] /\ hash_needs_PY_SSIZE_T_CLEAN py = false.
Proof.
  unfold PyArg_ParseTuple_zz_hash, parse_z, parse_z_hash.
  destruct args as [|o1 [|o2 [|? ?]]]; try destruct o1;
    try destruct (has_nul _);
    try destruct (hash_needs_PY_SSIZE_T_CLEAN py);
    try destruct o2; try discriminate; auto.
Qed.

(** Each call of a function of the module takes one of the three ways. *)
Lemma run_path op args st : path op args st (run op args st).
Proof.
  destruct op; cbn [run].
  - unfold idn2_utoa.
    destruct (PyArg_ParseTuple_s args) as [e|ulabel] eqn:P.
    + apply path_parser. eapply PyArg_ParseTuple_s_exception; eassumption.
    + rewrite (after_call utoa). apply path_engine. right; discriminate.
  - unfold idn2_lookup.
    destruct (PyArg_ParseTuple_s args) as [e|ulabel] eqn:P.
    + apply path_parser. eapply PyArg_ParseTuple_s_exception; eassumption.
    + rewrite (after_call lookup). apply path_engine. right; discriminate.
  - unfold idn2_register.
    destruct (PyArg_ParseTuple_zz_hash py args) as [e|[ulabel alabel]] eqn:P.
    + apply path_parser. eapply PyArg_ParseTuple_zz_hash_exception; eassumption.
    + assert (Hengine :
                (ulabel, alabel) <> (None, None) ->
                path register args st
                     (engine_path register
                        (Call_register_u8 (option_map c_str ulabel)
                                          (option_map c_str alabel)
                                          (IDN2_NFC_INPUT h)) st)).
      { intros Hne. apply path_engine. left. intros ->.
        apply Hne. revert P. unfold PyArg_ParseTuple_zz_hash, parse_z, parse_z_hash.
        destruct (hash_needs_PY_SSIZE_T_CLEAN py); congruence. }
      destruct ulabel as [u|], alabel as [a|];
        try (rewrite (after_call register); apply Hengine; discriminate).
      apply path_both_null; [reflexivity|].
      now apply PyArg_ParseTuple_zz_hash_null.
  - unfold idn2_atou.
    destruct (PyArg_ParseTuple_y args) as [e|alabel] eqn:P.
    + apply path_parser. eapply PyArg_ParseTuple_y_exception; eassumption.
    + rewrite (after_call atou). apply path_engine. right; discriminate.
Qed.




(** [register] hands the engine the A-label as a C string. *)
Lemma register_alabel_c_str ulabel b st :
  idn2_register [ulabel; PyBytes b] st
  = idn2_register [ulabel; PyBytes (c_str b)] st.
Proof.
  unfold idn2_register, PyArg_ParseTuple_zz_hash, parse_z_hash.
  destruct (parse_z ulabel) as [e|[u|]];
    destruct (hash_needs_PY_SSIZE_T_CLEAN py);
    cbn; rewrite ?c_str_idem; reflexivity.
Qed.

Lemma register_alabel_cut_at_nul ulabel a rest st :
  idn2_register [ulabel; PyBytes (a ++ String NUL rest)] st
  = idn2_register [ulabel; PyBytes a] st.
Proof.
  rewrite register_alabel_c_str, c_str_stops, <- register_alabel_c_str.
  reflexivity.
Qed.

(** Where the "#" unit needs [PY_SSIZE_T_CLEAN], [register] with two
    arguments of which the first is a U-label or [None] ends in the
    parser, whatever the second is. *)
Lemma register_hash_refused o1 o2 st :
  hash_needs_PY_SSIZE_T_CLEAN py = true ->
  (exists u, parse_z o1 = inr u) ->
  idn2_register [o1; o2] st
  = (NULL, {| curexc := Some (PyExc_SystemError, None);
              conversions := conversions st |}).
Proof.
  intros Hpy [u Hu].
  unfold idn2_register, PyArg_ParseTuple_zz_hash, parse_z_hash.
  now rewrite Hu, Hpy.
Qed.

Lemma table_lookup_In t rc msg :
  table_lookup t rc = Some msg -> In (rc, msg) t.
Proof.
  induction t as [|[code m] t IH]; cbn; [discriminate|].
  destruct (Z.eqb_spec rc code) as [->|_].
  - intros [= ->]. now left.
  - intros Hl. right. now apply IH.
Qed.

Lemma NoDup_snd_inj {A B} (t : list (A * B)) a a' b :
  NoDup (map snd t) -> In (a, b) t -> In (a', b) t -> a = a'.
Proof.
  induction t as [|[x y] t IH]; cbn; [contradiction|].
  intros Hnd [E|Hin] [E'|Hin']; inversion Hnd as [|? ? Hnotin Hnd']; subst.
  - congruence.
  - injection E as -> ->. exfalso. apply Hnotin.
    change b with (snd (a', b)). now apply in_map.
  - injection E' as -> ->. exfalso. apply Hnotin.
    change b with (snd (a, b)). now apply in_map.
  - now apply IH.
Qed.

(** No two [case]s of [setidn2errstr] share their message. *)
Lemma error_messages_distinct : NoDup (map snd error_message_table).
Proof.
  cbn. repeat (constructor; [cbn; intuition discriminate|]). constructor.
Qed.

(** No message of a [case] has the form of the [default] message. *)
Lemma error_message_table_not_fallback msg s :
  In msg (map snd error_message_table) -> msg <> "idn2 error " ++ s.
Proof.
  cbn. intros Hin.
  repeat (destruct Hin as [<-|Hin]; [discriminate|]). contradiction.
Qed.

(** The text [%d] gives determines the number. *)
Lemma format_d_inj n n' : format_d n = format_d n' -> n = n'.
Proof.
  unfold format_d. intros E.
  assert (Hnn : forall z, Z.to_int z <> Decimal.Pos Decimal.Nil
                          /\ Z.to_int z <> Decimal.Neg Decimal.Nil).
  { intros [|p|p]; cbn; split; try discriminate;
      intros [= Hp]; now apply DecimalPos.Unsigned.to_uint_nonnil in Hp. }
  apply DecimalZ.to_int_inj.
  assert (Some (Z.to_int n) = Some (Z.to_int n')) as [= ->]; [|reflexivity].
  rewrite <- (NilZero.isi (Z.to_int n)), <- (NilZero.isi (Z.to_int n'));
    try apply Hnn.
  now rewrite E.
Qed.

Lemma error_message_inj rc1 rc2 :
  error_message rc1 = error_message rc2 -> rc1 = rc2.
Proof.
  unfold error_message.
  destruct (table_lookup error_message_table rc1) as [m1|] eqn:L1;
    destruct (table_lookup error_message_table rc2) as [m2|] eqn:L2.
  - intros <-. apply table_lookup_In in L1, L2.
    exact (NoDup_snd_inj _ _ _ _ error_messages_distinct L1 L2).
  - intros E. exfalso. apply table_lookup_In in L1.
    apply (error_message_table_not_fallback m1 (format_d rc2)); [|exact E].
    change m1 with (snd (rc1, m1)). now apply in_map.
  - intros E. exfalso. apply table_lookup_In in L2.
    apply (error_message_table_not_fallback m2 (format_d rc1)); [|now symmetry].
    change m2 with (snd (rc2, m2)). now apply in_map.
  - intros E. apply format_d_inj.
    cbn in E. now repeat injection E as E.
Qed.

(* ===================================================================== *)
(** ** Properties of the module *)
(* ===================================================================== *)

(** C4.  [register] called with neither label (both arguments [None]).
    Where the "#" unit of the format is converted, the call returns NULL
    with the exception [idn2.error] and the message "Both arguments
    null.", and the engine is not called.  Where "#" needs
    [PY_SSIZE_T_CLEAN], which the module does not define, the parser
    raises [SystemError] first and the test for the two NULL pointers is
    not reached.  For every other argument tuple the both-null exception
    is not the one raised. *)
Theorem register_both_null args st :
  (args = [Py_None; Py_None] ->
   idn2_register args st =
   (NULL, {| curexc := Some (if hash_needs_PY_SSIZE_T_CLEAN py
                             then (PyExc_SystemError, None)
                             else both_null);
             conversions := conversions st |}))
  /\
  (args <> [Py_None; Py_None] -> curexc st = None ->
   curexc (snd (idn2_register args st)) <> Some both_null).
Proof.
  split.
  - intros ->. unfold idn2_register, PyArg_ParseTuple_zz_hash, parse_z_hash.
    cbn [parse_z]. now destruct (hash_needs_PY_SSIZE_T_CLEAN py).
  - intros Hargs Hst.
    change (idn2_register args st) with (run register args st).
    destruct (run_path register args st) as [e He | _ Hnull | c _].
    + cbn. unfold both_null. discriminate.
    + contradiction.
    + pose proof (engine_path_outcome register c st) as Hout.
      intros Hexc. revert Hout. unfold outcome_of. rewrite Hexc.
      destruct (engine c) as [rc out].
      destruct (fst (engine_path register c st));
        destruct (rc =? IDN2_OK h); cbn [decodes]; rewrite ?Hst;
        try discriminate.
      intros [= Hmsg]. exact (error_message_not_both_null rc (eq_sym Hmsg)).
Qed.

(** C8.  When the engine call made by one of the four functions comes
    back with a return code other than [IDN2_OK], the function returns
    NULL and raises [idn2.error] with the message the error-message table
    has for that code, or, when the table has none, with "idn2 error "
    followed by the code in decimal. *)
Theorem engine_error_raises_table_message op args st c rc out :
  conversions (snd (run op args st)) = c :: conversions st ->
  engine c = (rc, out) ->
  rc <> IDN2_OK h ->
  outcome_of (run op args st) =
  Raised (Idn2Error,
          Some (match table_lookup error_message_table rc with
                | Some msg => msg
                | None => "idn2 error " ++ format_d rc
                end)).
Proof.
  intros Hcall Hanswer Hrc.
  destruct (run_path op args st) as [e _ | _ _ | c' _]; cbn in Hcall.
  - symmetry in Hcall. now apply cons_neq_self in Hcall.
  - symmetry in Hcall. now apply cons_neq_self in Hcall.
  - rewrite engine_path_conversions in Hcall. injection Hcall as ->.
    rewrite engine_path_outcome, Hanswer.
    apply Z.eqb_neq in Hrc. now rewrite Hrc.
Qed.

(** C9.  A call of any of the four functions, entered with no exception
    pending, ends in exactly one of two ways, and never with an object
    together with an exception nor with NULL and no exception.  Either it
    returns the object built from the whole output string of an engine
    call that answered [IDN2_OK], with no exception set.  Or it returns
    NULL with one exception set, which tells what went wrong: an
    exception of the argument parser, the engine not called; the
    both-null exception of [register] called with [(None, None)], the
    engine not called; [idn2.error] with the message of the code, other
    than [IDN2_OK], that the one engine call answered, a message no other
    code has; or, in [atou], [UnicodeDecodeError] for an engine output
    that is not UTF-8. *)
Theorem success_or_error op args st :
  curexc st = None ->
  (exists c out,
      conversions (snd (run op args st)) = c :: conversions st /\
      engine c = (IDN2_OK h, out) /\
      decodes op out = true /\
      outcome_of (run op args st) = Returned (result_object op out))
  \/
  (exists cls,
      parser_exception cls /\
      conversions (snd (run op args st)) = conversions st /\
      outcome_of (run op args st) = Raised (cls, None))
  \/
  (op = register /\ args = [Py_None; Py_None] /\
   conversions (snd (run op args st)) = conversions st /\
   outcome_of (run op args st) = Raised both_null)
  \/
  (exists c,
      conversions (snd (run op args st)) = c :: conversions st /\
      fst (engine c) <> IDN2_OK h /\
      outcome_of (run op args st)
      = Raised (Idn2Error, Some (error_message (fst (engine c)))) /\
      (forall rc, error_message rc = error_message (fst (engine c)) ->
                  rc = fst (engine c)))
  \/
  (op = atou /\
   exists c out,
      conversions (snd (run op args st)) = c :: conversions st /\
      engine c = (IDN2_OK h, out) /\
      utf8_valid (c_str out) = false /\
      outcome_of (run op args st) = Raised (PyExc_UnicodeDecodeError, None)).
Proof.
  intros Hst.
  destruct (run_path op args st) as [e He | Hop Hargs | c _].
  - right; left. exists e. auto.
  - right; right; left. auto.
  - pose proof (engine_path_conversions op c st) as Hcall.
    pose proof (engine_path_outcome op c st) as Hout.
    destruct (engine c) as [rc out] eqn:Hanswer.
    destruct (rc =? IDN2_OK h) eqn:Hok.
    + apply Z.eqb_eq in Hok. subst rc.
      destruct (decodes op out) eqn:Hdec.
      * left. exists c, out. rewrite Hst in Hout. auto.
      * right; right; right; right.
        destruct op; try discriminate. split; [reflexivity|].
        exists c, out. auto.
    + right; right; right; left. exists c. rewrite Hanswer. cbn [fst].
      apply Z.eqb_neq in Hok. repeat split; auto.
      intros rc'. apply error_message_inj.
Qed.


(** C2.  What [register] does with the U-label "café" and the A-label
    "xn--caf-dma\0wrong", which differs from the A-label "xn--caf-dma"
    the engine accepts for that U-label.  Where the "#" unit of the
    format is converted, the engine is handed the bytes before the NUL
    only, and the call returns the bytes object as for "xn--caf-dma".
    Where "#" needs [PY_SSIZE_T_CLEAN], the parser raises [SystemError]
    and the engine is not called.  In neither case is the mismatch
    reported. *)
Theorem register_nul_extended_alabel_accepted st out :
  curexc st = None ->
  idn2_register_u8 h (Some "café") (Some "xn--caf-dma") (IDN2_NFC_INPUT h)
  = (IDN2_OK h, out) ->
  outcome_of (idn2_register
                [PyUnicode "café";
                 PyBytes ("xn--caf-dma" ++ String NUL "wrong")] st)
  = (if hash_needs_PY_SSIZE_T_CLEAN py
     then Raised (PyExc_SystemError, None)
     else Returned (PyBytes (c_str out)))
  /\ "xn--caf-dma" ++ String NUL "wrong" <> "xn--caf-dma".
Proof.
  intros Hst Hanswer. split; [|discriminate].
  rewrite register_alabel_cut_at_nul.
  destruct (hash_needs_PY_SSIZE_T_CLEAN py) eqn:Hpy.
  - rewrite register_hash_refused; [reflexivity | exact Hpy |].
    eexists. reflexivity.
  - unfold idn2_register, PyArg_ParseTuple_zz_hash, parse_z_hash.
    rewrite Hpy.
    cbn [parse_z has_nul Ascii.eqb NUL Ascii.zero Bool.eqb orb].
    rewrite (after_call register), engine_path_outcome.
    cbn [engine option_map c_str Ascii.eqb NUL Ascii.zero Bool.eqb].
    rewrite Hanswer, Z.eqb_refl. cbn [decodes result_object].
    now rewrite Hst.
Qed.

(* ===================================================================== *)
(** ** What each function asks of the engine *)
(* ===================================================================== *)

(** [utoa] is [idn2_to_ascii_8z] with the flag [IDN2_NO_TR46] alone. *)
Lemma idn2_utoa_engine u st :
  has_nul u = false ->
  idn2_utoa [PyUnicode u] st
  = engine_path utoa (Call_to_ascii_8z u (IDN2_NO_TR46 h)) st.
Proof.
  intros Hu. unfold idn2_utoa, PyArg_ParseTuple_s, parse_s. rewrite Hu.
  rewrite (after_call utoa), (c_str_whole u Hu). reflexivity.
Qed.

(** [lookup] is [idn2_lookup_u8] with the flag [IDN2_NFC_INPUT] alone. *)
Lemma idn2_lookup_engine u st :
  has_nul u = false ->
  idn2_lookup [PyUnicode u] st
  = engine_path lookup (Call_lookup_u8 u (IDN2_NFC_INPUT h)) st.
Proof.
  intros Hu. unfold idn2_lookup, PyArg_ParseTuple_s, parse_s. rewrite Hu.
  rewrite (after_call lookup), (c_str_whole u Hu). reflexivity.
Qed.

(** [atou] is [idn2_to_unicode_8z8z] with no flag. *)
Lemma idn2_atou_engine a st :
  has_nul a = false ->
  idn2_atou [PyBytes a] st
  = engine_path atou (Call_to_unicode_8z8z a 0) st.
Proof.
  intros Ha. unfold idn2_atou, PyArg_ParseTuple_y, parse_y. rewrite Ha.
  rewrite (after_call atou), (c_str_whole a Ha). reflexivity.
Qed.

(** [atou] applied to what [utoa] returned: the engine's to-Unicode on
    the engine's to-ASCII output, and nothing else. *)
Lemma idn2_atou_of_utoa u a st st' :
  has_nul u = false ->
  idn2_to_ascii_8z h u (IDN2_NO_TR46 h) = (IDN2_OK h, a) ->
  fst (idn2_utoa [PyUnicode u] st) = Some (PyBytes (c_str a)) /\
  idn2_atou [PyBytes (c_str a)] st'
  = engine_path atou (Call_to_unicode_8z8z (c_str a) 0) st'.
Proof.
  intros Hu Hanswer. split.
  - rewrite (idn2_utoa_engine u st Hu). unfold engine_path. cbn [engine].
    rewrite Hanswer, Z.eqb_refl. reflexivity.
  - apply idn2_atou_engine, c_str_no_nul.
Qed.

Lemma register_ulabel_engine u st :
  hash_needs_PY_SSIZE_T_CLEAN py = false ->
  has_nul u = false ->
  idn2_register [PyUnicode u; Py_None] st
  = engine_path register (Call_register_u8 (Some u) None (IDN2_NFC_INPUT h)) st.
Proof.
  intros Hpy Hu.
  unfold idn2_register, PyArg_ParseTuple_zz_hash, parse_z, parse_z_hash.
  rewrite Hu, Hpy. rewrite (after_call register).
  cbn [option_map]. now rewrite (c_str_whole u Hu).
Qed.

Lemma register_alabel_engine a st :
  hash_needs_PY_SSIZE_T_CLEAN py = false ->
  idn2_register [Py_None; PyBytes a] st
  = engine_path register
      (Call_register_u8 None (Some (c_str a)) (IDN2_NFC_INPUT h)) st.
Proof.
  intros Hpy.
  unfold idn2_register, PyArg_ParseTuple_zz_hash, parse_z, parse_z_hash.
  rewrite Hpy. now rewrite (after_call register).
Qed.

(* ===================================================================== *)
(** ** Further properties: messages *)
(* ===================================================================== *)

(** X1.  The exception [setidn2errstr] sets tells the return code: two
    different codes never leave the same exception.  (The 27
    messages of the [switch] are pairwise different, none has the form
    "idn2 error <n>", and the decimal text determines the number.) *)
Theorem setidn2errstr_identifies_code rc1 rc2 st1 st2 :
  rc1 <> rc2 ->
  curexc (snd (setidn2errstr rc1 st1)) <> curexc (snd (setidn2errstr rc2 st2)).
Proof.
  rewrite !setidn2errstr_message. cbn. intros Hne [= E].
  now apply Hne, error_message_inj.
Qed.

(* ===================================================================== *)
(** ** Further properties: the calls into the engine *)
(* ===================================================================== *)

(** The call each function makes once the parser has accepted the
    arguments. *)
Lemma run_asks op args st :
  conversions (snd (run op args st)) = conversions st
  \/ exists c, run op args st = engine_path op c st /\ asks op c.
Proof.
  destruct op; cbn [run].
  - unfold idn2_utoa. destruct (PyArg_ParseTuple_s args); [now left|].
    right. rewrite (after_call utoa). eexists. split; reflexivity.
  - unfold idn2_lookup. destruct (PyArg_ParseTuple_s args); [now left|].
    right. rewrite (after_call lookup). eexists. split; reflexivity.
  - unfold idn2_register.
    destruct (PyArg_ParseTuple_zz_hash py args) as [e|[[u|] [a|]]];
      try (now left);
      right; rewrite (after_call register); eexists;
      (split; [reflexivity|]); cbn; split; auto;
      (left + right); discriminate.
  - unfold idn2_atou. destruct (PyArg_ParseTuple_y args); [now left|].
    right. rewrite (after_call atou). eexists. split; reflexivity.
Qed.

Lemma engine_called_at_most_once_aux op args st :
  conversions (snd (run op args st)) = conversions st
  \/ exists c, conversions (snd (run op args st)) = c :: conversions st.
Proof.
  destruct (run_asks op args st) as [Hnone | [c [Hrun _]]].
  - now left.
  - right. exists c. rewrite Hrun. apply engine_path_conversions.
Qed.

(** X2.  A call of one of the four functions calls the engine at most
    once, and then through the function's own entry point with the flags
    written in the source: [IDN2_NO_TR46] for [utoa], [IDN2_NFC_INPUT] for
    [lookup] and [register], none for [atou].  [register] never hands the
    engine two NULL pointers. *)
Theorem engine_called_at_most_once op args st :
  conversions (snd (run op args st)) = conversions st
  \/ exists c, conversions (snd (run op args st)) = c :: conversions st
               /\ asks op c.
Proof.
  destruct (run_asks op args st) as [Hnone | [c [Hrun Hasks]]].
  - now left.
  - right. exists c. split; [|exact Hasks].
    rewrite Hrun. apply engine_path_conversions.
Qed.

(** X3.  Where an exception comes from.  When a call ends with an
    exception raised, then either the argument parser raised it
    ([TypeError], [ValueError], [SystemError] or [UnicodeEncodeError]) and
    the engine was not called; or it is the both-null exception of
    [register] called with [(None, None)], and the engine was not called;
    or the engine was called once, answered a code other than [IDN2_OK],
    and the exception is [idn2.error] with the message of that code; or
    the call is to [atou], the engine was called once and answered
    [IDN2_OK] with an output that is not UTF-8, and the exception is
    [UnicodeDecodeError]. *)
Theorem raised_exception_provenance op args st cls msg :
  outcome_of (run op args st) = Raised (cls, msg) ->
  (parser_exception cls /\ msg = None
   /\ conversions (snd (run op args st)) = conversions st)
  \/
  ((cls, msg) = both_null /\ op = register /\ args = [Py_None; Py_None]
   /\ conversions (snd (run op args st)) = conversions st)
  \/
  (exists c,
      conversions (snd (run op args st)) = c :: conversions st
      /\ fst (engine c) <> IDN2_OK h
      /\ cls = Idn2Error
      /\ msg = Some (error_message (fst (engine c))))
  \/
  (op = atou /\
   exists c out,
      conversions (snd (run op args st)) = c :: conversions st
      /\ engine c = (IDN2_OK h, out)
      /\ utf8_valid (c_str out) = false
      /\ cls = PyExc_UnicodeDecodeError /\ msg = None).
Proof.
  destruct (run_path op args st) as [e He | Hop Hargs | c _].
  - cbn. intros [= <- <-]. left. auto.
  - cbn. intros [= <- <-]. right; left. auto.
  - pose proof (engine_path_conversions op c st) as Hcall.
    rewrite engine_path_outcome.
    destruct (engine c) as [rc out] eqn:Hanswer.
    destruct (rc =? IDN2_OK h) eqn:Hok.
    + apply Z.eqb_eq in Hok. subst rc.
      destruct (decodes op out) eqn:Hdec.
      * destruct (curexc st); discriminate.
      * intros [= <- <-]. right; right; right.
        destruct op; try discriminate. split; [reflexivity|].
        exists c, out. auto.
    + intros [= <- <-]. right; right; left. exists c.
      rewrite Hanswer. apply Z.eqb_neq in Hok. auto.
Qed.

(** X4.  A sequence of calls from Python makes at most as many engine
    calls as there are calls: the record of engine calls grows at its
    front, by at most one entry per call.  No call is retried. *)
Theorem exec_engine_calls_bounded calls : forall st,
  exists made,
    conversions (exec calls st) = (made ++ conversions st)%list
    /\ (List.length made <= List.length calls)%nat.
Proof.
  induction calls as [|[op args] rest IH]; intros st; cbn [exec].
  - exists []. split; [reflexivity | apply Nat.le_refl].
  - destruct (IH (PyErr_Clear (snd (run op args st)))) as [made [Hmade Hlen]].
    cbn [PyErr_Clear conversions] in Hmade.
    destruct (engine_called_at_most_once_aux op args st) as [E | [c E]];
      rewrite E in Hmade.
    + exists made. split; [exact Hmade|]. cbn. now apply Nat.le_le_succ_r.
    + exists (made ++ [c])%list. split.
      * rewrite Hmade, <- app_assoc. reflexivity.
      * rewrite length_app. cbn. rewrite Nat.add_1_r. now apply le_n_S.
Qed.

(* ===================================================================== *)
(** ** Further properties: arguments and results *)
(* ===================================================================== *)

(** An object is returned only on the engine's [IDN2_OK], and is built
    from the engine's output. *)
Lemma run_returns op args st v :
  fst (run op args st) = Some v ->
  exists out, decodes op out = true /\ v = result_object op out.
Proof.
  destruct (run_path op args st) as [e _ | _ _ | c _]; try discriminate.
  unfold engine_path. destruct (engine c) as [rc out].
  destruct (rc =? IDN2_OK h); cbn; [|discriminate].
  rewrite build_result_cases. destruct (decodes op out) eqn:Hdec; cbn.
  - intros [= <-]. now exists out.
  - discriminate.
Qed.

(** X5.  The binding hands a well-formed argument to the engine as it
    is: for a string without NUL byte, [utoa], [lookup] and [atou] call
    their entry point with exactly that string.  So does [register] with
    one label, with NULL for the label left out, where the "#" unit of its
    format is converted; where "#" needs [PY_SSIZE_T_CLEAN], [register]
    raises [SystemError] whatever its second argument, and the engine is
    not called. *)
Theorem argument_reaches_engine_unchanged s st :
  has_nul s = false ->
  conversions (snd (run utoa [PyUnicode s] st))
  = Call_to_ascii_8z s (IDN2_NO_TR46 h) :: conversions st
  /\ conversions (snd (run lookup [PyUnicode s] st))
     = Call_lookup_u8 s (IDN2_NFC_INPUT h) :: conversions st
  /\ conversions (snd (run atou [PyBytes s] st))
     = Call_to_unicode_8z8z s 0 :: conversions st
  /\ (hash_needs_PY_SSIZE_T_CLEAN py = false ->
      conversions (snd (run register [PyUnicode s; Py_None] st))
      = Call_register_u8 (Some s) None (IDN2_NFC_INPUT h) :: conversions st
      /\ conversions (snd (run register [Py_None; PyBytes s] st))
         = Call_register_u8 None (Some s) (IDN2_NFC_INPUT h) :: conversions st)
  /\ (hash_needs_PY_SSIZE_T_CLEAN py = true ->
      forall o,
        run register [PyUnicode s; o] st
        = (NULL, {| curexc := Some (PyExc_SystemError, None);
                    conversions := conversions st |})
        /\ run register [Py_None; o] st
           = (NULL, {| curexc := Some (PyExc_SystemError, None);
                       conversions := conversions st |})).
Proof.
  intros Hs. cbn [run]. split; [|split; [|split; [|split]]].
  - now rewrite (idn2_utoa_engine s st Hs), engine_path_conversions.
  - now rewrite (idn2_lookup_engine s st Hs), engine_path_conversions.
  - now rewrite (idn2_atou_engine s st Hs), engine_path_conversions.
  - intros Hpy. split.
    + now rewrite (register_ulabel_engine s st Hpy Hs), engine_path_conversions.
    + now rewrite (register_alabel_engine s st Hpy), engine_path_conversions,
        (c_str_whole s Hs).
  - intros Hpy o. split.
    + apply register_hash_refused; [exact Hpy|].
      exists (Some s). cbn. now rewrite Hs.
    + apply register_hash_refused; [exact Hpy|].
      exists None. reflexivity.
Qed.

(** X6.  Results chain.  The bytes object [utoa], [lookup] or
    [register] returns is accepted by [atou], which calls the engine with
    exactly its content; the [str] object [atou] returns is accepted by
    [utoa] and by [lookup], which call the engine with exactly its
    content, and so does [register] with it as U-label where the "#" unit
    of its format is converted. *)
Theorem result_accepted_by_inverse op args st v st' :
  fst (run op args st) = Some v ->
  match op with
  | atou =>
      exists u, v = PyUnicode u
        /\ conversions (snd (run utoa [v] st'))
           = Call_to_ascii_8z u (IDN2_NO_TR46 h) :: conversions st'
        /\ conversions (snd (run lookup [v] st'))
           = Call_lookup_u8 u (IDN2_NFC_INPUT h) :: conversions st'
        /\ (hash_needs_PY_SSIZE_T_CLEAN py = false ->
            conversions (snd (run register [v; Py_None] st'))
            = Call_register_u8 (Some u) None (IDN2_NFC_INPUT h)
                :: conversions st')
  | _ =>
      exists a, v = PyBytes a
        /\ conversions (snd (run atou [v] st'))
           = Call_to_unicode_8z8z a 0 :: conversions st'
  end.
Proof.
  intros Hv. destruct (run_returns op args st v Hv) as [out [_ ->]].
  pose proof (c_str_no_nul out) as Hnn.
  destruct op; cbn [result_object run];
    eexists; (split; [reflexivity|]).
  - now rewrite (idn2_atou_engine _ st' Hnn), engine_path_conversions.
  - now rewrite (idn2_atou_engine _ st' Hnn), engine_path_conversions.
  - now rewrite (idn2_atou_engine _ st' Hnn), engine_path_conversions.
  - repeat split.
    + now rewrite (idn2_utoa_engine _ st' Hnn), engine_path_conversions.
    + now rewrite (idn2_lookup_engine _ st' Hnn), engine_path_conversions.
    + intros Hpy.
      now rewrite (register_ulabel_engine _ st' Hpy Hnn), engine_path_conversions.
Qed.

(** X7.  No function of the module accepts its own result as its first
    argument: the call raises [TypeError] and the engine is not called.
    ([utoa], [lookup] and [register] return [bytes] and take a [str];
    [atou] returns a [str] and takes [bytes].) *)
Theorem own_result_refused op args st v rest st' :
  fst (run op args st) = Some v ->
  run op (v :: rest) st'
  = (NULL, {| curexc := Some (PyExc_TypeError, None);
              conversions := conversions st' |}).
Proof.
  intros Hv. destruct (run_returns op args st v Hv) as [out [_ ->]].
  destruct op; cbn [result_object run].
  - unfold idn2_utoa. now destruct rest.
  - unfold idn2_lookup. now destruct rest.
  - unfold idn2_register. destruct rest as [|o [|? ?]]; reflexivity.
  - unfold idn2_atou. now destruct rest.
Qed.

(** X8.  [register] takes the A-label as [bytes] or as [str] alike (the
    format "z#" accepts both): the two calls do the same. *)
Theorem register_alabel_str_or_bytes ulabel s st :
  idn2_register [ulabel; PyUnicode s] st = idn2_register [ulabel; PyBytes s] st.
Proof.
  unfold idn2_register, PyArg_ParseTuple_zz_hash, parse_z_hash.
  destruct (parse_z ulabel) as [e|[u|]];
    destruct (hash_needs_PY_SSIZE_T_CLEAN py); reflexivity.
Qed.

(** X9.  A string with an embedded NUL byte is refused by [utoa],
    [lookup] and [atou], and as U-label by [register], with [ValueError];
    the engine is not called.  (The A-label of [register] is the one
    argument for which it is not refused.) *)
Theorem embedded_nul_refused s o st :
  has_nul s = true ->
  let refused := (@NULL PyObject,
                  {| curexc := Some (PyExc_ValueError, None);
                     conversions := conversions st |}) in
  run utoa [PyUnicode s] st = refused
  /\ run lookup [PyUnicode s] st = refused
  /\ run atou [PyBytes s] st = refused
  /\ run register [PyUnicode s; o] st = refused.
Proof.
  intros Hs refused. subst refused. cbn [run].
  unfold idn2_utoa, idn2_lookup, idn2_atou, idn2_register,
    PyArg_ParseTuple_s, PyArg_ParseTuple_y, PyArg_ParseTuple_zz_hash,
    parse_s, parse_y, parse_z.
  rewrite Hs. repeat split.
Qed.

(** X11.  Called with a number of arguments other than the one its
    format asks for (none at all, for instance), a function raises
    [TypeError] and does not call the engine. *)
Theorem wrong_arity_refused op args st :
  List.length args <> arity op ->
  run op args st
  = (NULL, {| curexc := Some (PyExc_TypeError, None);
              conversions := conversions st |}).
Proof.
  intros Hlen.
  destruct op; cbn [run arity] in *;
    unfold idn2_utoa, idn2_lookup, idn2_register, idn2_atou,
      PyArg_ParseTuple_s, PyArg_ParseTuple_y, PyArg_ParseTuple_zz_hash;
    destruct args as [|o1 [|o2 [|o3 rest]]]; cbn in Hlen;
    try reflexivity; now contradiction Hlen.
Qed.

End Idn2Module.

(* ===================================================================== *)
(** ** Module initialisation *)
(* ===================================================================== *)

(** X10.  [PyInit_idn2] returns a module exactly when its three calls
    into CPython succeed, and NULL otherwise.  In the module it returns,
    [error] is bound to the exception class the four functions raise,
    which is also what the static [Idn2Error] then holds, and every name
    of the method table is bound to its function: adding [error] has
    replaced none of them. *)
Theorem PyInit_idn2_module rt Idn2Error_var :
  match PyInit_idn2 rt Idn2Error_var with
  | (Some m, Idn2Error_var') =>
      (module_created rt = true /\ exception_created rt = true
       /\ object_added rt = true)
      /\ Idn2Error_var' = Some Idn2Error
      /\ md_name m = "idn2"
      /\ dict_get "error" (md_dict m) = Some (Class Idn2Error)
      /\ (forall name meth flags doc,
             In (Method name meth flags doc) Idn2Methods ->
             dict_get name (md_dict m) = Some (Builtin meth doc))
  | (None, _) =>
      module_created rt = false \/ exception_created rt = false
      \/ object_added rt = false
  end.
Proof.
  destruct rt as [[|] [|] [|]]; cbn; auto.
  repeat split; try reflexivity.
  intros name meth flags doc Hin.
  repeat (destruct Hin as [[= <- <- <- <-]|Hin]; [reflexivity|]).
  destruct Hin as [Hin|[]]. discriminate.
Qed.

(* ===================================================================== *)
(** ** The module at work *)
(* ===================================================================== *)

Example format_d_neg : format_d (-314) = "-314".
Proof. reflexivity. Qed.

Example format_d_zero : format_d 0 = "0".
Proof. reflexivity. Qed.

Example c_str_cut : c_str ("xn--caf-dma" ++ String NUL "wrong") = "xn--caf-dma".
Proof. reflexivity. Qed.

(** The case labels of libidn2 are pairwise different, and none is
    [IDN2_OK]. *)
Example libidn2_codes_distinct :
  NoDup (IDN2_OK (stand_in 0 "") :: map fst (error_message_table (stand_in 0 ""))).
Proof.
  cbn. repeat (constructor; [cbn; intuition discriminate|]). constructor.
Qed.

(** [atou] refuses a bytes object with an embedded NUL; the engine is
    not called. *)
Example atou_embedded_nul :
  idn2_atou (stand_in 0 "x") [PyBytes ("xn--caf-dma" ++ String NUL "wrong")] st0
  = (NULL, {| curexc := Some (PyExc_ValueError, None); conversions := [] |}).
Proof. reflexivity. Qed.

(** [atou] when the engine answers [IDN2_OK] with bytes that are not
    UTF-8 (here the single byte 0xFF): NULL with [UnicodeDecodeError],
    after the engine call. *)
Example atou_output_not_utf8 :
  idn2_atou (stand_in 0 (String (ascii_of_nat 255) "")) [PyBytes "xn--x"] st0
  = (NULL, {| curexc := Some (PyExc_UnicodeDecodeError, None);
              conversions := [Call_to_unicode_8z8z "xn--x" 0] |}).
Proof. reflexivity. Qed.

(** A [str] with a lone surrogate cannot be handed to C. *)
Example utoa_unencodable :
  idn2_utoa (stand_in 0 "x") [PyUnicode_unencodable] st0
  = (NULL, {| curexc := Some (PyExc_UnicodeEncodeError, None);
              conversions := [] |}).
Proof. reflexivity. Qed.

(** [register] where "#" needs [PY_SSIZE_T_CLEAN]: every call with a
    well-formed first argument ends in the parser. *)
Example register_cpython_3_11 :
  idn2_register (stand_in 0 "xn--caf-dma") cpython_3_11
                [PyUnicode "café"; PyBytes "xn--caf-dma"] st0
  = (NULL, {| curexc := Some (PyExc_SystemError, None); conversions := [] |}).
Proof. reflexivity. Qed.

Example register_cpython_3_9 :
  idn2_register (stand_in 0 "xn--caf-dma") cpython_3_9
                [PyUnicode "café"; PyBytes "xn--caf-dma"] st0
  = (Some (PyBytes "xn--caf-dma"),
     {| curexc := None;
        conversions := [Call_register_u8 (Some "café") (Some "xn--caf-dma") 1] |}).
Proof. reflexivity. Qed.

(** A code libidn2 has and the table lacks
    ([IDN2_ALABEL_ROUNDTRIP_FAILED], -314) takes the [default] branch. *)
Example utoa_unlisted_code :
  idn2_utoa (stand_in (-314) "") [PyUnicode "x"] st0
  = (NULL, {| curexc := Some (Idn2Error, Some "idn2 error -314");
              conversions := [Call_to_ascii_8z "x" 64] |}).
Proof. reflexivity. Qed.

Lemma register_both_null_witness :
  idn2_register (stand_in 0 "") cpython_3_9 [Py_None; Py_None] st0
  = (NULL, {| curexc := Some both_null; conversions := [] |})
  /\
  idn2_register (stand_in 0 "") cpython_3_11 [Py_None; Py_None] st0
  = (NULL, {| curexc := Some (PyExc_SystemError, None); conversions := [] |})
  /\
  curexc (snd (idn2_register (stand_in 0 "xn--caf-dma") cpython_3_9
                             [PyUnicode "café"; Py_None] st0))
  <> Some both_null.
Proof.
  split; [|split].
  - exact (proj1 (register_both_null (stand_in 0 "") cpython_3_9
                                     [Py_None; Py_None] st0) eq_refl).
  - exact (proj1 (register_both_null (stand_in 0 "") cpython_3_11
                                     [Py_None; Py_None] st0) eq_refl).
  - apply (proj2 (register_both_null (stand_in 0 "xn--caf-dma") cpython_3_9
                                     [PyUnicode "café"; Py_None] st0)).
    + discriminate.
    + reflexivity.
Defined.

Lemma engine_error_raises_table_message_witness :
  outcome_of (run (stand_in (-206) "") cpython_3_9 utoa [PyUnicode "x"] st0)
  = Raised (Idn2Error, Some "Domain label longer than 63 characters.")
  /\
  outcome_of (run (stand_in (-314) "") cpython_3_9 atou [PyBytes "xn--x"] st0)
  = Raised (Idn2Error, Some "idn2 error -314").
Proof.
  split.
  - apply (engine_error_raises_table_message
             (stand_in (-206) "") cpython_3_9 utoa [PyUnicode "x"] st0
             (Call_to_ascii_8z "x" 64) (-206) "").
    + reflexivity.
    + reflexivity.
    + discriminate.
  - apply (engine_error_raises_table_message
             (stand_in (-314) "") cpython_3_9 atou [PyBytes "xn--x"] st0
             (Call_to_unicode_8z8z "xn--x" 0) (-314) "").
    + reflexivity.
    + reflexivity.
    + discriminate.
Defined.

Lemma success_or_error_witness :
  let h := stand_in 0 "xn--caf-dma" in
  let r := run h cpython_3_9 utoa [PyUnicode "café"] st0 in
  (exists c out,
      conversions (snd r) = c :: conversions st0 /\
      engine h c = (IDN2_OK h, out) /\
      decodes utoa out = true /\
      outcome_of r = Returned (result_object utoa out))
  \/
  (exists cls,
      parser_exception cls /\
      conversions (snd r) = conversions st0 /\
      outcome_of r = Raised (cls, None))
  \/
  (utoa = register /\ [PyUnicode "café"] = [Py_None; Py_None] /\
   conversions (snd r) = conversions st0 /\
   outcome_of r = Raised both_null)
  \/
  (exists c,
      conversions (snd r) = c :: conversions st0 /\
      fst (engine h c) <> IDN2_OK h /\
      outcome_of r
      = Raised (Idn2Error, Some (error_message h (fst (engine h c)))) /\
      (forall rc, error_message h rc = error_message h (fst (engine h c)) ->
                  rc = fst (engine h c)))
  \/
  (utoa = atou /\
   exists c out,
      conversions (snd r) = c :: conversions st0 /\
      engine h c = (IDN2_OK h, out) /\
      utf8_valid (c_str out) = false /\
      outcome_of r = Raised (PyExc_UnicodeDecodeError, None)).
Proof.
  apply (success_or_error (stand_in 0 "xn--caf-dma") cpython_3_9
                          utoa [PyUnicode "café"] st0).
  reflexivity.
Defined.

Lemma register_nul_extended_alabel_accepted_witness :
  let h := stand_in 0 "xn--caf-dma" in
  let args := [PyUnicode "café";
               PyBytes ("xn--caf-dma" ++ String NUL "wrong")] in
  (outcome_of (idn2_register h cpython_3_9 args st0)
   = Returned (PyBytes "xn--caf-dma")
   /\ "xn--caf-dma" ++ String NUL "wrong" <> "xn--caf-dma")
  /\
  (outcome_of (idn2_register h cpython_3_11 args st0)
   = Raised (PyExc_SystemError, None)
   /\ "xn--caf-dma" ++ String NUL "wrong" <> "xn--caf-dma").
Proof.
  split.
  - apply (register_nul_extended_alabel_accepted
             (stand_in 0 "xn--caf-dma") cpython_3_9 st0 "xn--caf-dma").
    + reflexivity.
    + reflexivity.
  - apply (register_nul_extended_alabel_accepted
             (stand_in 0 "xn--caf-dma") cpython_3_11 st0 "xn--caf-dma").
    + reflexivity.
    + reflexivity.
Defined.

Lemma setidn2errstr_identifies_code_witness :
  curexc (snd (setidn2errstr (stand_in 0 "") (-205) st0))
  <> curexc (snd (setidn2errstr (stand_in 0 "") (-314) st0)).
Proof.
  apply (setidn2errstr_identifies_code (stand_in 0 "") (-205) (-314) st0 st0).
  discriminate.
Defined.

Lemma raised_exception_provenance_witness :
  let h := stand_in 0 (String (ascii_of_nat 255) "") in
  let r := run h cpython_3_9 atou [PyBytes "xn--x"] st0 in
  (parser_exception PyExc_UnicodeDecodeError
   /\ @None string = None
   /\ conversions (snd r) = conversions st0)
  \/
  ((PyExc_UnicodeDecodeError, None) = both_null
   /\ atou = register /\ [PyBytes "xn--x"] = [Py_None; Py_None]
   /\ conversions (snd r) = conversions st0)
  \/
  (exists c,
      conversions (snd r) = c :: conversions st0
      /\ fst (engine h c) <> IDN2_OK h
      /\ PyExc_UnicodeDecodeError = Idn2Error
      /\ None = Some (error_message h (fst (engine h c))))
  \/
  (atou = atou /\
   exists c out,
      conversions (snd r) = c :: conversions st0
      /\ engine h c = (IDN2_OK h, out)
      /\ utf8_valid (c_str out) = false
      /\ PyExc_UnicodeDecodeError = PyExc_UnicodeDecodeError
      /\ @None string = None).
Proof.
  apply (raised_exception_provenance
           (stand_in 0 (String (ascii_of_nat 255) "")) cpython_3_9
           atou [PyBytes "xn--x"] st0 PyExc_UnicodeDecodeError None).
  reflexivity.
Defined.

Lemma argument_reaches_engine_unchanged_witness :
  let h := stand_in 0 "xn--caf-dma" in
  (conversions (snd (run h cpython_3_9 utoa [PyUnicode "café"] st0))
   = [Call_to_ascii_8z "café" 64]
   /\ conversions (snd (run h cpython_3_9 lookup [PyUnicode "café"] st0))
      = [Call_lookup_u8 "café" 1]
   /\ conversions (snd (run h cpython_3_9 atou [PyBytes "café"] st0))
      = [Call_to_unicode_8z8z "café" 0]
   /\ conversions (snd (run h cpython_3_9 register [PyUnicode "café"; Py_None] st0))
      = [Call_register_u8 (Some "café") None 1]
   /\ conversions (snd (run h cpython_3_9 register [Py_None; PyBytes "café"] st0))
      = [Call_register_u8 None (Some "café") 1])
  /\
  (run h cpython_3_11 register [PyUnicode "café"; Py_None] st0
   = (NULL, {| curexc := Some (PyExc_SystemError, None); conversions := [] |})
   /\ run h cpython_3_11 register [Py_None; PyBytes "café"] st0
      = (NULL, {| curexc := Some (PyExc_SystemError, None); conversions := [] |})).
Proof.
  split.
  - destruct (argument_reaches_engine_unchanged
                (stand_in 0 "xn--caf-dma") cpython_3_9 "café" st0 eq_refl)
      as [Hu [Hl [Ha [Hr _]]]].
    destruct (Hr eq_refl) as [Hr1 Hr2].
    exact (conj Hu (conj Hl (conj Ha (conj Hr1 Hr2)))).
  - destruct (argument_reaches_engine_unchanged
                (stand_in 0 "xn--caf-dma") cpython_3_11 "café" st0 eq_refl)
      as [_ [_ [_ [_ Hr]]]].
    split.
    + exact (proj1 (Hr eq_refl Py_None)).
    + exact (proj2 (Hr eq_refl (PyBytes "café"))).
Defined.

Lemma result_accepted_by_inverse_witness :
  let h := stand_in 0 "xn--caf-dma" in
  exists a, PyBytes "xn--caf-dma" = PyBytes a
    /\ conversions (snd (run h cpython_3_9 atou [PyBytes "xn--caf-dma"] st0))
       = Call_to_unicode_8z8z a 0 :: conversions st0.
Proof.
  apply (result_accepted_by_inverse
           (stand_in 0 "xn--caf-dma") cpython_3_9 utoa [PyUnicode "café"] st0
           (PyBytes "xn--caf-dma") st0).
  reflexivity.
Defined.

Lemma own_result_refused_witness :
  run (stand_in 0 "xn--caf-dma") cpython_3_9 utoa [PyBytes "xn--caf-dma"] st0
  = (NULL, {| curexc := Some (PyExc_TypeError, None); conversions := [] |}).
Proof.
  apply (own_result_refused
           (stand_in 0 "xn--caf-dma") cpython_3_9 utoa [PyUnicode "café"] st0
           (PyBytes "xn--caf-dma") [] st0).
  reflexivity.
Defined.

Lemma embedded_nul_refused_witness :
  let h := stand_in 0 "xn--caf-dma" in
  let s := "xn--caf-dma" ++ String NUL "wrong" in
  let refused := (@NULL PyObject,
                  {| curexc := Some (PyExc_ValueError, None);
                     conversions := [] |}) in
  run h cpython_3_11 utoa [PyUnicode s] st0 = refused
  /\ run h cpython_3_11 lookup [PyUnicode s] st0 = refused
  /\ run h cpython_3_11 atou [PyBytes s] st0 = refused
  /\ run h cpython_3_11 register [PyUnicode s; Py_None] st0 = refused.
Proof.
  apply (embedded_nul_refused
           (stand_in 0 "xn--caf-dma") cpython_3_11
           ("xn--caf-dma" ++ String NUL "wrong") Py_None st0).
  reflexivity.
Defined.

Lemma wrong_arity_refused_witness :
  run (stand_in 0 "xn--caf-dma") cpython_3_11 register [PyUnicode "café"] st0
  = (NULL, {| curexc := Some (PyExc_TypeError, None); conversions := [] |}).
Proof.
  apply (wrong_arity_refused (stand_in 0 "xn--caf-dma") cpython_3_11 register
                             [PyUnicode "café"] st0).
  discriminate.
Defined.
